(** * The aisanity example Flask API (examples/python-flask-api/app.py)

    A shallow embedding of the four view functions of [app.py], of the
    [app] object they read, and of the part of Flask's request dispatch
    that turns what a view returns or raises into a reply.

    Conventions of the embedding.
    - Python values that travel through the views (parsed JSON bodies and
      the objects handed to [jsonify]) are [pyval]; a [dict] is a finite
      map from strings.
    - A Python [float] is idealised as an exact rational ([Qc]); the
      rounding of single floating-point operations is not modelled. The
      statements either name the code's own expression or depend only on
      the sign and the order of its result, which rounding keeps.
    - The wall clock is an input of each request: [time.time()] and
      [datetime.datetime.now().isoformat()] are read from a [clock].
    - [request.get_json()] belongs to Flask: its result (a value, or a
      raised exception) is carried by the request.
    - The only process-wide object the views can see is [app]; views are
      written in a state-and-exception monad over it. *)

From stdpp Require Import gmap strings list fin_maps numbers.
From Stdlib Require Import QArith Qcanon Qround.

#[local] Set Warnings "-register-all".
#[local] Open Scope Z_scope.

(** ** Python values *)

Inductive pyval : Type :=
  | PNone
  | PBool (b : bool)
  | PInt (z : Z)
  | PFloat (q : Qc)
  | PStr (s : string)
  | PList (l : list pyval)
  | PDict (d : gmap string pyval).

(** [bool(v)]: the truth value Python's [not], [or] and [if] test. *)
Definition truthy (v : pyval) : bool :=
  match v with
  | PNone => false
  | PBool b => b
  | PInt z => negb (z =? 0)
  | PFloat q => negb (bool_decide (q = Q2Qc 0))
  | PStr s => negb (bool_decide (s = ""%string))
  | PList l => negb (length l =? 0)%nat
  | PDict d => negb (size d =? 0)%nat
  end.

Definition py_not (v : pyval) : bool := negb (truthy v).

(** [int(x)] on a float truncates towards zero. *)
Definition py_int (q : Qc) : Z := Z.quot (Qnum q) (Z.pos (Qden q)).

(** A dict display [{k1: v1, k2: v2, ...}]: entries are stored left to
    right, a later entry for the same key replacing an earlier one. *)
Definition dict_literal (items : list (string * pyval)) : gmap string pyval :=
  fold_left (fun d kv => <[kv.1 := kv.2]> d) items ∅.

(** ** Exceptions and the view monad *)

Inductive exn : Type :=
  | HTTPException (code : Z)   (* werkzeug: BadRequest is 400, ... *)
  | AttributeError
  | TypeError
  | KeyError (k : string).

Definition BadRequest : exn := HTTPException 400.
Definition UnsupportedMediaType : exn := HTTPException 415.
Definition NotFound : exn := HTTPException 404.

Inductive outcome (A : Type) : Type :=
  | Return (a : A)
  | Raise (e : exn).
Arguments Return {A} a.
Arguments Raise {A} e.

(** The [app] object as far as the program touches it:
    [start_time = None] stands for [not hasattr(app, 'start_time')]. *)
Record Flask : Type := mkFlask { start_time : option Qc }.

(** A computation that may read or write [app] and may raise. *)
Definition M (A : Type) : Type := Flask -> outcome A * Flask.

Definition ret {A} (a : A) : M A := fun app => (Return a, app).
Definition raise {A} (e : exn) : M A := fun app => (Raise e, app).
Definition lift {A} (o : outcome A) : M A := fun app => (o, app).
Definition bind {A B} (m : M A) (k : A -> M B) : M B :=
  fun app =>
    match m app with
    | (Return a, app') => k a app'
    | (Raise e, app') => (Raise e, app')
    end.
Definition get_app : M Flask := fun app => (Return app, app).
Definition set_start_time (t : Qc) : M unit :=
  fun _ => (Return tt, mkFlask (Some t)).

Notation "'let*' x ':=' m 'in' k" := (bind m (fun x => k))
  (at level 10, x pattern, m at level 100, k at level 200).

(** ** What a request brings *)

Record clock : Type := mkClock {
  time_time : Qc;            (* time.time(): seconds since the epoch *)
  now_isoformat : string     (* datetime.datetime.now().isoformat() *)
}.

(** The four routes registered on [app]. A POST carries what
    [request.get_json()] does for it: Flask returns the parsed document
    and raises [BadRequest] when the body fails to parse; for a request
    without a JSON content type it returns [None] (Flask before 2.1) or
    raises [UnsupportedMediaType] (since 2.1). A request that no rule
    accepts never reaches a view: routing raises for it ([NotFound] 404,
    method not allowed 405). *)
Inductive request : Type :=
  | GET_root
  | GET_health
  | GET_api_users
  | POST_api_users (get_json : outcome pyval)
  | Unrouted (code : Z).

(** ** Responses *)

Record Response : Type := mkResponse {
  status_code : Z;
  json : pyval
}.

(** [jsonify(obj)]: a JSON response, status 200 unless overridden. *)
Definition jsonify (obj : pyval) : Response := mkResponse 200 obj.

(** A view returns a response, or a pair of a response and a status. *)
Inductive view_rv : Type :=
  | Rv (r : Response)
  | RvStatus (r : Response) (status : Z).

Definition make_response (rv : view_rv) : Response :=
  match rv with
  | Rv r => r
  | RvStatus r status => mkResponse status (json r)
  end.

(** ** Attribute and item access on the parsed body *)

(** [data.get(key)]: only a dict has the method. *)
Definition py_get (data : pyval) (key : string) : outcome pyval :=
  match data with
  | PDict d => Return (default PNone (d !! key))
  | _ => Raise AttributeError
  end.

(** [data[key]] with a string key. *)
Definition py_getitem (data : pyval) (key : string) : outcome pyval :=
  match data with
  | PDict d =>
      match d !! key with
      | Some v => Return v
      | None => Raise (KeyError key)
      end
  | _ => Raise TypeError
  end.

(** ** The views *)

Definition hello (c : clock) : M view_rv :=
  ret (Rv (jsonify (PDict (dict_literal [
    ("message"%string,
       PStr "Hello from aisanity sandboxed Python Flask API!");
    ("timestamp"%string, PStr (now_isoformat c));
    ("environment"%string, PStr "development")
  ])))).

Definition health (c : clock) : M view_rv :=
  let* app := get_app in
  ret (Rv (jsonify (PDict (dict_literal [
    ("status"%string, PStr "OK");
    ("uptime"%string,
       match start_time app with
       | Some t0 => PFloat (time_time c - t0)%Qc
       | None => PInt 0
       end)
  ])))).

Definition seed_users : list pyval := [
  PDict (dict_literal [("id"%string, PInt 1); ("name"%string, PStr "Alice");
                       ("email"%string, PStr "alice@aisanity.dev")]);
  PDict (dict_literal [("id"%string, PInt 2); ("name"%string, PStr "Bob");
                       ("email"%string, PStr "bob@aisanity.dev")]);
  PDict (dict_literal [("id"%string, PInt 3); ("name"%string, PStr "Charlie");
                       ("email"%string, PStr "charlie@aisanity.dev")])
].

Definition get_users : M view_rv :=
  let users := seed_users in
  ret (Rv (jsonify (PDict (dict_literal [
    ("users"%string, PList users);
    ("count"%string, PInt (Z.of_nat (length users)))
  ])))).

Definition error_body : pyval :=
  PDict (dict_literal [("error"%string, PStr "Name and email are required")]).

(** The test [not data or not data.get('name') or not data.get('email')],
    evaluated left to right with short circuit. *)
Definition required_missing (data : pyval) : M bool :=
  if py_not data then ret true
  else
    let* name := lift (py_get data "name") in
    if py_not name then ret true
    else
      let* email := lift (py_get data "email") in
      ret (py_not email).

Definition create_user (c : clock) (get_json : outcome pyval) : M view_rv :=
  let* data := lift get_json in
  let* missing := required_missing data in
  if missing then ret (RvStatus (jsonify error_body) 400)
  else
    let id := PInt (py_int (time_time c * Qc_of_Z 1000)%Qc) in
    let* name := lift (py_getitem data "name") in
    let* email := lift (py_getitem data "email") in
    let new_user := PDict (dict_literal [
      ("id"%string, id);
      ("name"%string, name);
      ("email"%string, email);
      ("created_at"%string, PStr (now_isoformat c))
    ]) in
    ret (RvStatus (jsonify (PDict (dict_literal [
      ("message"%string, PStr "User created successfully");
      ("user"%string, new_user)
    ]))) 201).

(** ** Dispatch and the process *)

(** What the client gets: the response a view built, or the framework's
    own error response (not built by any view) with its status code. *)
Inductive reply : Type :=
  | Handled (r : Response)
  | FrameworkError (code : Z).

(** Flask answers an [HTTPException] with that exception's own response
    and any other exception with a 500. *)
Definition error_code (e : exn) : Z :=
  match e with
  | HTTPException code => code
  | _ => 500
  end.

Definition view_of (c : clock) (r : request) : M view_rv :=
  match r with
  | GET_root => hello c
  | GET_health => health c
  | GET_api_users => get_users
  | POST_api_users get_json => create_user c get_json
  | Unrouted code => raise (HTTPException code)
  end.

Definition dispatch (c : clock) (r : request) (app : Flask) : reply * Flask :=
  match view_of c r app with
  | (Return rv, app') => (Handled (make_response rv), app')
  | (Raise e, app') => (FrameworkError (error_code e), app')
  end.

(** Serving a sequence of requests, each with the clock it is served at. *)
Fixpoint serve (reqs : list (clock * request)) (app : Flask)
  : list reply * Flask :=
  match reqs with
  | [] => ([], app)
  | (c, r) :: reqs' =>
      let '(rep, app') := dispatch c r app in
      let '(reps, app'') := serve reqs' app' in
      (rep :: reps, app'')
  end.

(** [app = Flask(__name__)] at import. *)
Definition Flask_new : Flask := mkFlask None.

(** The [__main__] block, up to [app.run]: it stamps the start time. *)
Definition main (t0 : Qc) : Flask := (set_start_time t0 Flask_new).2.

(** A process that has served nothing yet: the module was imported by a
    server, or run as a script at clock reading [t0]. *)
Inductive fresh_process : Flask -> Prop :=
  | fresh_imported : fresh_process Flask_new
  | fresh_main t0 : fresh_process (main t0).

(** ** Reading replies *)

Definition reply_json (rep : reply) : option pyval :=
  match rep with
  | Handled r => Some (json r)
  | FrameworkError _ => None
  end.

Definition reply_status (rep : reply) : Z :=
  match rep with
  | Handled r => status_code r
  | FrameworkError code => code
  end.

Definition field (k : string) (v : pyval) : option pyval :=
  match v with
  | PDict d => d !! k
  | _ => None
  end.

(** The [users] array and the [count] of a reply that has them. *)
Definition reply_users (rep : reply) : option (list pyval) :=
  match reply_json rep ≫= field "users" with
  | Some (PList l) => Some l
  | _ => None
  end.

Definition reply_count (rep : reply) : option Z :=
  match reply_json rep ≫= field "count" with
  | Some (PInt n) => Some n
  | _ => None
  end.

(** ** Vocabulary of the statements *)

(** [data.get(k)] on a dict. *)
Definition field_or_None (d : gmap string pyval) (k : string) : pyval :=
  default PNone (d !! k).

(** The record [create_user] builds, the response that carries it, and
    the response that refuses. *)
Definition new_user (c : clock) (name email : pyval) : pyval :=
  PDict (dict_literal [
    ("id"%string, PInt (py_int (time_time c * Qc_of_Z 1000)%Qc));
    ("name"%string, name);
    ("email"%string, email);
    ("created_at"%string, PStr (now_isoformat c))
  ]).

Definition created (c : clock) (name email : pyval) : Response :=
  mkResponse 201 (PDict (dict_literal [
    ("message"%string, PStr "User created successfully");
    ("user"%string, new_user c name email)
  ])).

Definition rejected : Response := mkResponse 400 error_body.

(** The object [get_users] hands to [jsonify]. *)
Definition users_body : pyval :=
  PDict (dict_literal [("users"%string, PList seed_users);
                       ("count"%string, PInt 3)]).

(** A user record as [get_users] writes it: [{id, name, email}]. *)
Definition user_record (id : Z) (name email : string) : pyval :=
  PDict (dict_literal [("id"%string, PInt id); ("name"%string, PStr name);
                       ("email"%string, PStr email)]).

(** The number a JSON number stands for. *)
Definition py_number (v : pyval) : option Qc :=
  match v with
  | PInt z => Some (Qc_of_Z z)
  | PFloat q => Some q
  | _ => None
  end.

(** What [health] reports as uptime at clock [c]. *)
Definition uptime (c : clock) (app : Flask) : pyval :=
  match start_time app with
  | Some t0 => PFloat (time_time c - t0)%Qc
  | None => PInt 0
  end.

(** The [uptime] a reply reports, as a number, and the [id] of the user
    record a reply carries. *)
Definition reply_uptime (rep : reply) : option Qc :=
  (reply_json rep ≫= field "uptime") ≫= py_number.

Definition reply_user_id (rep : reply) : option Z :=
  match (reply_json rep ≫= field "user") ≫= field "id" with
  | Some (PInt n) => Some n
  | _ => None
  end.

(** The reading of C1: the count listed after the POST is one more than
    the count listed before it. *)
Definition post_adds_one (c : clock) (d : gmap string pyval) (c' : clock)
    (app : Flask) : Prop :=
  forall before,
    reply_count (dispatch c' GET_api_users app).1 = Some before ->
    reply_count
      (dispatch c' GET_api_users
         (dispatch c (POST_api_users (Return (PDict d))) app).2).1
      = Some (before + 1).

(** The reading of C3: when [get_json] finds no document or fails to
    parse one, the view itself answers 400 with the JSON error body. *)
Definition absent_or_unparseable (gj : outcome pyval) : Prop :=
  gj = Return PNone \/ gj = Raise BadRequest.

Definition view_rejects (c : clock) (gj : outcome pyval) (app : Flask)
  : Prop :=
  create_user c gj app = (Return (RvStatus (jsonify error_body) 400), app)
  /\ (dispatch c (POST_api_users gj) app).1 = Handled rejected.

(** ** Concrete inputs used below *)

Definition dana : gmap string pyval :=
  dict_literal [("name"%string, PStr "Dana");
                ("email"%string, PStr "dana@x.com")].

Definition clock_a : clock :=
  mkClock (Qc_of_Z 1700000000) "2023-11-14T22:13:20".
Definition clock_b : clock :=
  mkClock (Qc_of_Z 1700000060) "2023-11-14T22:14:20".

Definition dana_empty_email : gmap string pyval :=
  dict_literal [("name"%string, PStr "Dana"); ("email"%string, PStr "")].

Definition sample_run : list (clock * request) :=
  [(clock_a, GET_api_users);
   (clock_a, POST_api_users (Return (PDict dana)));
   (clock_b, GET_api_users)].

(** Dana's body with a field the view does not ask for, and a body whose
    [name] and [email] are not strings. *)
Definition dana_admin : gmap string pyval :=
  dict_literal [("name"%string, PStr "Dana");
                ("email"%string, PStr "dana@x.com");
                ("admin"%string, PBool true)].

Definition untyped_body : gmap string pyval :=
  dict_literal [("name"%string, PInt 7);
                ("email"%string, PList [PStr "a"])].

(** * Properties *)

(** ** The monad and Python truth values *)

Lemma bind_lift_Return {A B} (a : A) (k : A -> M B) app :
  bind (lift (Return a)) k app = k a app.
Proof. reflexivity. Qed.

Lemma truthy_dict_lookup (d : gmap string pyval) k v :
  d !! k = Some v -> truthy (PDict d) = true.
Proof.
  intros Hk. simpl. destruct (size d) eqn:Hsize; [|reflexivity].
  apply map_size_empty_iff in Hsize. subst d.
  rewrite lookup_empty in Hk. discriminate.
Qed.

Lemma py_int_pos (q : Qc) : (Q2Qc 1 <= q)%Qc -> 0 < py_int q.
Proof.
  unfold Qcle, Qle, py_int. simpl. intros Hle.
  apply Z.quot_str_pos. lia.
Qed.

Lemma Qc_elapsed_nonneg (t0 t : Qc) : (t0 <= t)%Qc -> (Q2Qc 0 <= t - t0)%Qc.
Proof. intros Hle. unfold Qcminus. apply (proj1 (Qcle_minus_iff t0 t) Hle). Qed.

(** ** The required-field test on a JSON object *)

Lemma required_missing_dict (d : gmap string pyval) app :
  required_missing (PDict d) app =
    (Return (py_not (PDict d)
             || py_not (field_or_None d "name")
             || py_not (field_or_None d "email")), app).
Proof.
  unfold required_missing, field_or_None, py_get.
  destruct (py_not (PDict d)); [reflexivity|].
  rewrite bind_lift_Return.
  destruct (py_not (default PNone (d !! "name"))); [reflexivity|].
  rewrite bind_lift_Return. reflexivity.
Qed.

(** Any other truthy document has no [get]: the test itself raises. *)
Lemma required_missing_not_dict data app :
  (forall d, data <> PDict d) ->
  required_missing data app =
    (if py_not data then Return true else Raise AttributeError, app).
Proof.
  intros Hnd. unfold required_missing.
  destruct (py_not data); [reflexivity|].
  destruct data; try reflexivity. by destruct (Hnd d).
Qed.

(** A field that passed the test is there to be subscripted. *)
Lemma py_getitem_present (d : gmap string pyval) k :
  py_not (field_or_None d k) = false ->
  py_getitem (PDict d) k = Return (field_or_None d k).
Proof.
  unfold field_or_None, py_getitem.
  destruct (d !! k) as [v|]; [reflexivity|discriminate].
Qed.

(** [create_user] on a JSON object: rejected exactly when the test holds. *)
Lemma create_user_dict c (d : gmap string pyval) app :
  create_user c (Return (PDict d)) app =
    if py_not (PDict d)
       || py_not (field_or_None d "name")
       || py_not (field_or_None d "email")
    then (Return (RvStatus (jsonify error_body) 400), app)
    else (Return (RvStatus (jsonify (json (created c (field_or_None d "name")
                                             (field_or_None d "email")))) 201),
          app).
Proof.
  unfold create_user. rewrite bind_lift_Return.
  unfold bind at 1. rewrite required_missing_dict.
  destruct (_ || _) eqn:Htest; [reflexivity|].
  apply orb_false_iff in Htest as [Htest He].
  apply orb_false_iff in Htest as [_ Hn].
  rewrite (py_getitem_present d "name" Hn), bind_lift_Return.
  rewrite (py_getitem_present d "email" He), bind_lift_Return.
  reflexivity.
Qed.

(** [create_user] on a document that is not an object: rejected when it
    is falsy ([null], [0], [false], the empty string or array), and an
    [AttributeError] out of [data.get] otherwise. *)
Lemma create_user_not_dict c data app :
  (forall d, data <> PDict d) ->
  create_user c (Return data) app =
    if py_not data then (Return (RvStatus (jsonify error_body) 400), app)
    else (Raise AttributeError, app).
Proof.
  intros Hnd. unfold create_user. rewrite bind_lift_Return.
  unfold bind at 1. rewrite (required_missing_not_dict data app Hnd).
  destruct (py_not data); reflexivity.
Qed.

(** Every way [create_user] can end, and [app] as it was in each. *)
Lemma create_user_cases c gj app :
  (exists e, create_user c gj app = (Raise e, app))
  \/ create_user c gj app = (Return (RvStatus (jsonify error_body) 400), app)
  \/ (exists name email,
        create_user c gj app =
          (Return (RvStatus (jsonify (json (created c name email))) 201), app)).
Proof.
  destruct gj as [data|e]; [|left; by exists e].
  destruct data as [ |b|z|q|s|l|d].
  7: { rewrite create_user_dict.
       destruct (_ || _); [right; left; reflexivity|].
       right; right. by eexists _, _. }
  all: rewrite create_user_not_dict by discriminate;
       destruct (py_not _);
       [right; left; reflexivity | left; by exists AttributeError].
Qed.

(** ** No view writes to [app] *)

Lemma view_of_frame c r app : (view_of c r app).2 = app.
Proof.
  destruct r as [ | | |gj|code]; try reflexivity.
  simpl view_of.
  destruct (create_user_cases c gj app) as [[e ->]|[->|(n & e & ->)]];
    reflexivity.
Qed.

Lemma dispatch_frame c r app : (dispatch c r app).2 = app.
Proof.
  unfold dispatch. pose proof (view_of_frame c r app) as Hf.
  destruct (view_of c r app) as [[rv|e] app']; exact Hf.
Qed.

Lemma serve_frame reqs app : (serve reqs app).2 = app.
Proof.
  revert app. induction reqs as [|[c r] reqs IH]; intros app; [reflexivity|].
  simpl. pose proof (dispatch_frame c r app) as Hd.
  destruct (dispatch c r app) as [rep app']. simpl in Hd. subst app'.
  specialize (IH app). destruct (serve reqs app) as [reps app'']. exact IH.
Qed.

(** ** Replies to POST /api/users *)

Lemma dispatch_create_user_dict c (d : gmap string pyval) app :
  dispatch c (POST_api_users (Return (PDict d))) app =
    (Handled (if py_not (PDict d)
                 || py_not (field_or_None d "name")
                 || py_not (field_or_None d "email")
              then rejected
              else created c (field_or_None d "name") (field_or_None d "email")),
     app).
Proof.
  unfold dispatch. simpl view_of. rewrite create_user_dict.
  destruct (_ || _); reflexivity.
Qed.

(** Both fields present and truthy: the record is built and returned. *)
Lemma dispatch_create_user_accepted c (d : gmap string pyval) n e app :
  d !! "name" = Some n -> d !! "email" = Some e ->
  truthy n = true -> truthy e = true ->
  dispatch c (POST_api_users (Return (PDict d))) app =
    (Handled (created c n e), app).
Proof.
  intros Hn He Htn Hte. rewrite dispatch_create_user_dict.
  unfold field_or_None, py_not. rewrite Hn, He. simpl default.
  rewrite (truthy_dict_lookup d "name" n Hn), Htn, Hte. reflexivity.
Qed.

Lemma dispatch_create_user_cases c gj app :
  (exists e, dispatch c (POST_api_users gj) app
               = (FrameworkError (error_code e), app))
  \/ dispatch c (POST_api_users gj) app = (Handled rejected, app)
  \/ (exists name email,
        dispatch c (POST_api_users gj) app
          = (Handled (created c name email), app)).
Proof.
  unfold dispatch. simpl view_of.
  destruct (create_user_cases c gj app) as [[e ->]|[->|(n & e & ->)]].
  - left. by exists e.
  - right; left. reflexivity.
  - right; right. by exists n, e.
Qed.

(** ** Replies that carry a user list *)

Lemma dispatch_get_users c app :
  dispatch c GET_api_users app = (Handled (mkResponse 200 users_body), app).
Proof. reflexivity. Qed.

(** Whatever the request, a reply with a [users] array has the seed list. *)
Lemma reply_users_dispatch c r app (u : list pyval) :
  reply_users (dispatch c r app).1 = Some u -> u = seed_users.
Proof.
  destruct r as [ | | |gj|code].
  - discriminate.
  - unfold dispatch, view_of, health, bind, get_app, ret.
    destruct (start_time app); discriminate.
  - rewrite dispatch_get_users. intros [= <-]. reflexivity.
  - destruct (dispatch_create_user_cases c gj app)
      as [[e ->]|[->|(n & e & ->)]]; discriminate.
  - discriminate.
Qed.

Lemma reply_users_serve reqs app i (u : list pyval) :
  ((serve reqs app).1 !! i) ≫= reply_users = Some u -> u = seed_users.
Proof.
  revert app i. induction reqs as [|[c r] reqs IH]; intros app i.
  - destruct i; discriminate.
  - simpl. pose proof (reply_users_dispatch c r app u) as Hd.
    destruct (dispatch c r app) as [rep app'].
    specialize (IH app'). destruct (serve reqs app') as [reps app''].
    destruct i as [|i]; simpl in *; [exact Hd|apply IH].
Qed.

(** The reply at a position is the view's answer to the request there. *)
Lemma serve_lookup reqs app i c r :
  reqs !! i = Some (c, r) ->
  (serve reqs app).1 !! i = Some (dispatch c r app).1.
Proof.
  revert i. induction reqs as [|[c1 r1] reqs IH]; intros i Hi.
  - destruct i; discriminate.
  - simpl. pose proof (dispatch_frame c1 r1 app) as Hf.
    destruct (dispatch c1 r1 app) as [rep app'] eqn:Hd.
    simpl in Hf. subst app'.
    destruct (serve reqs app) as [reps app''] eqn:Hs.
    destruct i as [|i]; simpl in *.
    + injection Hi as <- <-. rewrite Hd. reflexivity.
    + exact (IH i Hi).
Qed.

(** * The claims *)

(** ** C4: the user list of a fresh process *)

(** C4. On a freshly started process that has served no POST,
    GET /api/users answers 200 with exactly the three seed users (Alice
    with id 1, Bob with id 2, Charlie with id 3) in [users] and with
    [count] equal to 3; [app] is left as it was. *)
Theorem get_users_fresh c app :
  fresh_process app ->
  dispatch c GET_api_users app =
    (Handled (mkResponse 200 (PDict (dict_literal [
       ("users"%string, PList [
          user_record 1 "Alice" "alice@aisanity.dev";
          user_record 2 "Bob" "bob@aisanity.dev";
          user_record 3 "Charlie" "charlie@aisanity.dev"]);
       ("count"%string, PInt 3)]))),
     app).
Proof. intros _. reflexivity. Qed.

Lemma get_users_fresh_witness :
  fresh_process (main (Qc_of_Z 1699999000))
  /\ dispatch clock_a GET_api_users (main (Qc_of_Z 1699999000)) =
       (Handled (mkResponse 200 (PDict (dict_literal [
          ("users"%string, PList [
             user_record 1 "Alice" "alice@aisanity.dev";
             user_record 2 "Bob" "bob@aisanity.dev";
             user_record 3 "Charlie" "charlie@aisanity.dev"]);
          ("count"%string, PInt 3)]))),
        main (Qc_of_Z 1699999000)).
Proof.
  split; [apply fresh_main|].
  apply (get_users_fresh clock_a (main (Qc_of_Z 1699999000))).
  apply fresh_main.
Defined.

(** ** C8: the greeting *)

(** C8. Every GET / answers 200 with a JSON object made of the fixed
    greeting message, the timestamp read from the clock at the request,
    and the environment label "development", whatever the state of the
    process. *)
Theorem hello_reply c app :
  dispatch c GET_root app =
    (Handled (mkResponse 200 (PDict (dict_literal [
       ("message"%string,
          PStr "Hello from aisanity sandboxed Python Flask API!");
       ("timestamp"%string, PStr (now_isoformat c));
       ("environment"%string, PStr "development")]))),
     app).
Proof. reflexivity. Qed.

(** ** C6: the health check *)

(** A process stamped at 1700000060 whose wall clock then reads
    1700000000 (it was set back a minute): GET /health answers 200 with
    [status] "OK" and an uptime of -60 seconds, which is negative. *)
Lemma health_uptime_negative_after_clock_set_back :
  fresh_process (main (Qc_of_Z 1700000060))
  /\ (dispatch clock_a GET_health (main (Qc_of_Z 1700000060))).1 =
       Handled (mkResponse 200 (PDict (dict_literal [
         ("status"%string, PStr "OK");
         ("uptime"%string, PFloat (Qc_of_Z (-60)))])))
  /\ py_number (PFloat (Qc_of_Z (-60))) = Some (Qc_of_Z (-60))
  /\ ~ (0 <= Qc_of_Z (-60))%Qc.
Proof.
  split; [apply fresh_main|]. split; [|split; [reflexivity|]].
  - unfold dispatch, view_of, health, bind, get_app, ret, main. simpl.
    rewrite <- Z2Qc_inj_sub. reflexivity.
  - rewrite <- Z2Qc_inj_0. intros Hle.
    apply (proj2 (Z2Qc_inj_le 0 (-60))) in Hle. lia.
Qed.

(** C6, amended. Every GET /health answers 200 with [status] "OK" and
    with [uptime] the seconds between the stamped start time and the
    clock at the request when the start time is set, and 0 when it is
    not; the uptime is a number, and it is non-negative exactly when the
    clock at the request does not read earlier than the stamped start
    time (so it is negative when the wall clock was set back). *)
Theorem health_reply c app :
  dispatch c GET_health app =
    (Handled (mkResponse 200 (PDict (dict_literal [
       ("status"%string, PStr "OK");
       ("uptime"%string, uptime c app)]))),
     app)
  /\ (forall t0, start_time app = Some t0 ->
        uptime c app = PFloat (time_time c - t0)%Qc)
  /\ (start_time app = None -> uptime c app = PInt 0)
  /\ exists q,
       py_number (uptime c app) = Some q
       /\ ((Q2Qc 0 <= q)%Qc
           <-> forall t0, start_time app = Some t0 -> (t0 <= time_time c)%Qc).
Proof.
  split; [reflexivity|]. unfold uptime.
  destruct (start_time app) as [t0|] eqn:Hstart.
  - split; [by intros ? [= <-]|]. split; [discriminate|].
    exists (time_time c - t0)%Qc. split; [reflexivity|]. split.
    + intros Hq t [= <-]. unfold Qcminus in Hq.
      apply (proj2 (Qcle_minus_iff t0 (time_time c)) Hq).
    + intros Hclock. apply Qc_elapsed_nonneg, Hclock. reflexivity.
  - split; [discriminate|]. split; [reflexivity|].
    exists (Qc_of_Z 0). split; [reflexivity|]. split; [discriminate|].
    intros _. rewrite Z2Qc_inj_0. apply Qcle_refl.
Qed.

(** The amended statement at a process stamped 1000 seconds before the
    request: the uptime is 1000. *)
Lemma health_reply_witness :
  (forall t0, start_time (main (Qc_of_Z 1699999000)) = Some t0 ->
     (t0 <= time_time clock_a)%Qc)
  /\ (dispatch clock_a GET_health (main (Qc_of_Z 1699999000))).1 =
       Handled (mkResponse 200 (PDict (dict_literal [
         ("status"%string, PStr "OK");
         ("uptime"%string, PFloat (Qc_of_Z 1000))]))).
Proof.
  assert (Hclock : forall t0,
            start_time (main (Qc_of_Z 1699999000)) = Some t0 ->
            (t0 <= time_time clock_a)%Qc).
  { intros t0 [= <-].
    apply (proj1 (Z2Qc_inj_le 1699999000 1700000000)). lia. }
  split; [exact Hclock|].
  destruct (health_reply clock_a (main (Qc_of_Z 1699999000)))
    as [Hreply _].
  rewrite Hreply. unfold uptime. simpl.
  rewrite <- Z2Qc_inj_sub. reflexivity.
Defined.

(** ** C2, C9: the required-field check *)

(** C2. A POST /api/users whose parsed JSON object lacks [name] or lacks
    [email] (the empty object included) is answered 400 with exactly the
    body [{"error": "Name and email are required"}]. *)
Theorem create_user_missing_field c (d : gmap string pyval) app :
  d !! "name" = None \/ d !! "email" = None ->
  dispatch c (POST_api_users (Return (PDict d))) app =
    (Handled (mkResponse 400
       (PDict {[ "error"%string := PStr "Name and email are required" ]})),
     app).
Proof.
  intros Hmiss. rewrite dispatch_create_user_dict.
  replace (_ || _) with true; [reflexivity|]. symmetry.
  unfold field_or_None.
  destruct Hmiss as [-> | ->]; simpl default;
    rewrite ?orb_true_r; reflexivity.
Qed.

Lemma create_user_missing_field_witness :
  (({[ "name"%string := PStr "Dana" ]} : gmap string pyval) !! "name" = None
   \/ ({[ "name"%string := PStr "Dana" ]} : gmap string pyval) !! "email"
        = None)
  /\ dispatch clock_a
       (POST_api_users (Return (PDict {[ "name"%string := PStr "Dana" ]})))
       Flask_new =
     (Handled (mkResponse 400
        (PDict {[ "error"%string := PStr "Name and email are required" ]})),
      Flask_new).
Proof.
  assert (Hmiss :
    ({[ "name"%string := PStr "Dana" ]} : gmap string pyval) !! "name" = None
    \/ ({[ "name"%string := PStr "Dana" ]} : gmap string pyval) !! "email"
         = None) by (right; reflexivity).
  split; [exact Hmiss|].
  exact (create_user_missing_field clock_a _ Flask_new Hmiss).
Defined.

(** The empty object is the first case of C2. *)
Example create_user_empty_object c app :
  dispatch c (POST_api_users (Return (PDict ∅))) app =
    (Handled (mkResponse 400
       (PDict {[ "error"%string := PStr "Name and email are required" ]})),
     app).
Proof. reflexivity. Qed.

(** C9. A POST /api/users whose JSON object binds [name] or [email] to a
    falsy value (the empty string, [null], [0], [false], ...) is answered
    400 with the body [{"error": "Name and email are required"}]: the
    check tests truth, not presence. *)
Theorem create_user_falsy_field c (d : gmap string pyval) v app :
  d !! "name" = Some v \/ d !! "email" = Some v ->
  truthy v = false ->
  dispatch c (POST_api_users (Return (PDict d))) app =
    (Handled (mkResponse 400
       (PDict {[ "error"%string := PStr "Name and email are required" ]})),
     app).
Proof.
  intros Hbound Hfalsy. rewrite dispatch_create_user_dict.
  replace (_ || _) with true; [reflexivity|]. symmetry.
  unfold field_or_None, py_not at 2 3.
  destruct Hbound as [-> | ->]; simpl default; rewrite Hfalsy;
    rewrite ?orb_true_r; reflexivity.
Qed.

Lemma create_user_falsy_field_witness :
  (dana_empty_email !! "name" = Some (PStr "")
   \/ dana_empty_email !! "email" = Some (PStr ""))
  /\ truthy (PStr "") = false
  /\ dispatch clock_a (POST_api_users (Return (PDict dana_empty_email)))
       Flask_new =
     (Handled (mkResponse 400
        (PDict {[ "error"%string := PStr "Name and email are required" ]})),
      Flask_new).
Proof.
  assert (Hbound : dana_empty_email !! "name" = Some (PStr "")
                   \/ dana_empty_email !! "email" = Some (PStr ""))
    by (right; reflexivity).
  split; [exact Hbound|]. split; [reflexivity|].
  exact (create_user_falsy_field clock_a dana_empty_email (PStr "") Flask_new
           Hbound eq_refl).
Defined.

(** The other falsy JSON values named by C9. *)
Example falsy_json_values :
  truthy PNone = false /\ truthy (PInt 0) = false
  /\ truthy (PBool false) = false /\ truthy (PStr "") = false
  /\ truthy (PList []) = false /\ truthy (PDict ∅) = false.
Proof. repeat split. Qed.

(** ** C5: a successful POST *)

(** C5. A POST /api/users with body
    [{"name": "Dana", "email": "dana@x.com"}] is answered 201 with a
    message and a user object whose [id] is the clock reading in whole
    milliseconds, whose [name] is "Dana", whose [email] is "dana@x.com"
    and whose [created_at] is the timestamp read at the request; the [id]
    is a positive integer as soon as the clock reads at least one
    millisecond past the epoch. *)
Theorem create_user_dana c app :
  (1 <= time_time c * Qc_of_Z 1000)%Qc ->
  dispatch c (POST_api_users (Return (PDict dana))) app =
    (Handled (mkResponse 201 (PDict (dict_literal [
       ("message"%string, PStr "User created successfully");
       ("user"%string, PDict (dict_literal [
          ("id"%string, PInt (py_int (time_time c * Qc_of_Z 1000)%Qc));
          ("name"%string, PStr "Dana");
          ("email"%string, PStr "dana@x.com");
          ("created_at"%string, PStr (now_isoformat c))]))]))),
     app)
  /\ 0 < py_int (time_time c * Qc_of_Z 1000)%Qc.
Proof.
  intros Hclock. split; [|by apply py_int_pos].
  rewrite dispatch_create_user_dict. reflexivity.
Qed.

Lemma create_user_dana_witness :
  (1 <= time_time clock_a * Qc_of_Z 1000)%Qc
  /\ reply_status (dispatch clock_a (POST_api_users (Return (PDict dana)))
                     Flask_new).1 = 201
  /\ 0 < py_int (time_time clock_a * Qc_of_Z 1000)%Qc.
Proof.
  assert (Hclock : (1 <= time_time clock_a * Qc_of_Z 1000)%Qc).
  { unfold clock_a. simpl time_time. rewrite <- Z2Qc_inj_mul, <- Z2Qc_inj_1.
    apply (proj1 (Z2Qc_inj_le _ _)). lia. }
  split; [exact Hclock|].
  destruct (create_user_dana clock_a Flask_new Hclock) as [Hreply Hid].
  split; [|exact Hid]. rewrite Hreply. reflexivity.
Defined.

(** ** C10, C7: what requests leave behind *)

(** C10. No view changes the process-wide state: whatever sequence of
    requests is served, [app] ends as it began; and after any POST
    /api/users, accepted or not, GET /api/users answers what it would
    have answered without it, the three seed users with count 3, since
    [get_users] builds its list anew and [create_user] keeps nothing. *)
Theorem views_keep_state :
  (forall reqs app, (serve reqs app).2 = app)
  /\ (forall c gj c' app,
        let app' := (dispatch c (POST_api_users gj) app).2 in
        dispatch c' GET_api_users app' = dispatch c' GET_api_users app
        /\ reply_status (dispatch c' GET_api_users app').1 = 200
        /\ reply_users (dispatch c' GET_api_users app').1 = Some seed_users
        /\ reply_count (dispatch c' GET_api_users app').1 = Some 3)
  /\ (forall c c' app app',
        (dispatch c GET_api_users app).1 = (dispatch c' GET_api_users app').1).
Proof.
  split; [exact serve_frame|]. split; [|reflexivity].
  intros c gj c' app app'. subst app'.
  rewrite dispatch_frame. repeat split.
Qed.

(** C7. Along every sequence of served requests, every GET /api/users
    is answered with a list that starts with the three seed records
    unchanged, and the list of a later answer extends the list of any
    earlier one: what is listed is only ever appended to, never dropped
    or altered. *)
Theorem seed_users_kept reqs app i j ci cj :
  (i <= j)%nat ->
  reqs !! i = Some (ci, GET_api_users) ->
  reqs !! j = Some (cj, GET_api_users) ->
  exists ui uj : list pyval,
    ((serve reqs app).1 !! i) ≫= reply_users = Some ui
    /\ ((serve reqs app).1 !! j) ≫= reply_users = Some uj
    /\ [user_record 1 "Alice" "alice@aisanity.dev";
        user_record 2 "Bob" "bob@aisanity.dev";
        user_record 3 "Charlie" "charlie@aisanity.dev"] `prefix_of` ui
    /\ ui `prefix_of` uj.
Proof.
  intros _ Hi Hj.
  apply (serve_lookup reqs app) in Hi. apply (serve_lookup reqs app) in Hj.
  exists seed_users, seed_users. rewrite Hi, Hj.
  repeat split; reflexivity.
Qed.

Lemma seed_users_kept_witness :
  (0 <= 2)%nat
  /\ sample_run !! 0%nat = Some (clock_a, GET_api_users)
  /\ sample_run !! 2%nat = Some (clock_b, GET_api_users)
  /\ exists ui uj : list pyval,
       ((serve sample_run Flask_new).1 !! 0%nat) ≫= reply_users = Some ui
       /\ ((serve sample_run Flask_new).1 !! 2%nat) ≫= reply_users = Some uj
       /\ seed_users `prefix_of` ui
       /\ ui `prefix_of` uj.
Proof.
  split; [lia|]. split; [reflexivity|]. split; [reflexivity|].
  exact (seed_users_kept sample_run Flask_new 0 2 clock_a clock_b
           ltac:(lia) eq_refl eq_refl).
Defined.

(** ** C1: a POST is not stored *)

(** On a fresh process, an accepted POST of Dana is followed by a list
    that still counts 3, not 4. *)
Lemma create_user_then_count_3 :
  fresh_process Flask_new
  /\ reply_status
       (dispatch clock_a (POST_api_users (Return (PDict dana))) Flask_new).1
     = 201
  /\ reply_count
       (dispatch clock_b GET_api_users
          (dispatch clock_a (POST_api_users (Return (PDict dana)))
             Flask_new).2).1
     = Some 3
  /\ reply_count
       (dispatch clock_b GET_api_users
          (dispatch clock_a (POST_api_users (Return (PDict dana)))
             Flask_new).2).1
     <> Some 4
  /\ ~ post_adds_one clock_a dana clock_b Flask_new.
Proof.
  split; [constructor|]. split; [reflexivity|]. split; [reflexivity|].
  split; [discriminate|].
  intros Hadd. specialize (Hadd 3 eq_refl). discriminate Hadd.
Qed.

(** C1, amended. A POST /api/users whose JSON object has [name] and
    [email] appends nothing anywhere: [app] is left as it was, and a
    following GET /api/users lists the same three seed users and the same
    count, 3, as one served before the POST. *)
Theorem create_user_not_stored c (d : gmap string pyval) name email c' app :
  d !! "name" = Some name ->
  d !! "email" = Some email ->
  let app' := (dispatch c (POST_api_users (Return (PDict d))) app).2 in
  app' = app
  /\ reply_users (dispatch c' GET_api_users app').1
       = reply_users (dispatch c' GET_api_users app).1
  /\ reply_count (dispatch c' GET_api_users app').1
       = reply_count (dispatch c' GET_api_users app).1
  /\ reply_count (dispatch c' GET_api_users app').1 = Some 3.
Proof.
  intros _ _ app'. subst app'. rewrite dispatch_frame. repeat split.
Qed.

Lemma create_user_not_stored_witness :
  dana !! "name" = Some (PStr "Dana")
  /\ dana !! "email" = Some (PStr "dana@x.com")
  /\ reply_count
       (dispatch clock_b GET_api_users
          (dispatch clock_a (POST_api_users (Return (PDict dana)))
             Flask_new).2).1
     = Some 3.
Proof.
  split; [reflexivity|]. split; [reflexivity|].
  exact (proj2 (proj2 (proj2
    (create_user_not_stored clock_a dana (PStr "Dana") (PStr "dana@x.com")
       clock_b Flask_new eq_refl eq_refl)))).
Defined.

(** ** C3: a body that is absent or does not parse *)

(** A body that fails to parse: [get_json] raises, the view returns
    nothing, and the reply is the framework's. *)
Lemma unparseable_body_not_rejected_by_view :
  absent_or_unparseable (Raise BadRequest)
  /\ create_user clock_a (Raise BadRequest) Flask_new
       = (Raise BadRequest, Flask_new)
  /\ (dispatch clock_a (POST_api_users (Raise BadRequest)) Flask_new).1
       = FrameworkError 400
  /\ ~ view_rejects clock_a (Raise BadRequest) Flask_new.
Proof.
  split; [by right|]. split; [reflexivity|]. split; [reflexivity|].
  intros [Hview _]. discriminate Hview.
Qed.

(** C3, amended. When [get_json] returns [None] (no document), the view
    itself answers 400 with the body
    [{"error": "Name and email are required"}]; when [get_json] raises
    (a body that does not parse), the view catches nothing: the exception
    leaves it and the reply is the framework's error response. *)
Theorem create_user_no_document c app :
  view_rejects c (Return PNone) app
  /\ dispatch c (POST_api_users (Return PNone)) app =
       (Handled (mkResponse 400
          (PDict {[ "error"%string := PStr "Name and email are required" ]})),
        app)
  /\ (forall e,
        create_user c (Raise e) app = (Raise e, app)
        /\ dispatch c (POST_api_users (Raise e)) app
             = (FrameworkError (error_code e), app)).
Proof. repeat split. Qed.

(** * Further properties of the views *)

(** ** [int()] on the clock reading *)

Lemma py_int_floor (q : Qc) : 0 <= Qnum q -> py_int q = Qfloor q.
Proof.
  destruct q as [[n d] Hc]. unfold py_int, Qfloor. simpl. intros Hn.
  apply Z.quot_div_nonneg; lia.
Qed.

Lemma py_int_ceiling (q : Qc) : Qnum q <= 0 -> py_int q = Qceiling q.
Proof.
  destruct q as [[n d] Hc]. unfold py_int, Qceiling, Qfloor, Qopp. simpl.
  intros Hn. rewrite <- (Z.opp_involutive n) at 1.
  rewrite Z.quot_opp_l by lia. rewrite Z.quot_div_nonneg by lia. reflexivity.
Qed.

Lemma py_int_nonpos (q : Qc) : Qnum q <= 0 -> py_int q <= 0.
Proof.
  destruct q as [[n d] Hc]. unfold py_int. simpl. intros Hn.
  rewrite <- (Z.opp_involutive n). rewrite Z.quot_opp_l by lia.
  pose proof (Z.quot_pos (- n) (Z.pos d)). lia.
Qed.

(** Truncation towards zero never reverses an order. *)
Lemma py_int_mono (q1 q2 : Qc) : (q1 <= q2)%Qc -> py_int q1 <= py_int q2.
Proof.
  intros Hle. destruct (Z_lt_le_dec (Qnum q1) 0) as [Hneg1|Hpos1].
  - destruct (Z_lt_le_dec (Qnum q2) 0) as [Hneg2|Hpos2].
    + rewrite !py_int_ceiling by lia. by apply Qceiling_resp_le.
    + pose proof (py_int_nonpos q1). rewrite (py_int_floor q2 Hpos2).
      assert (0 <= Qfloor q2); [|lia].
      rewrite <- (Qfloor_Z 0). apply Qfloor_resp_le.
      unfold Qle. simpl. lia.
  - assert (0 <= Qnum q2) as Hpos2.
    { unfold Qcle, Qle in Hle.
      destruct (Z_lt_le_dec (Qnum q2) 0) as [Hneg2|]; [|assumption]. nia. }
    rewrite !py_int_floor by assumption. by apply Qfloor_resp_le.
Qed.

Lemma py_int_pos_iff (q : Qc) : 0 < py_int q <-> (1 <= q)%Qc.
Proof.
  split; [|apply py_int_pos].
  intros Hpos. unfold Qcle, Qle. simpl.
  destruct (Z_lt_le_dec (Qnum q) (Z.pos (Qden q))) as [Hlt|Hge]; [|lia].
  exfalso. destruct (Z_lt_le_dec (Qnum q) 0) as [Hneg|Hnn].
  - pose proof (py_int_nonpos q). lia.
  - unfold py_int in Hpos. rewrite Z.quot_small in Hpos by lia. lia.
Qed.

Lemma clock_ms_mono (t1 t2 : Qc) :
  (t1 <= t2)%Qc -> (t1 * Qc_of_Z 1000 <= t2 * Qc_of_Z 1000)%Qc.
Proof.
  intros Hle. apply Qcmult_le_mono_pos_r; [|exact Hle].
  rewrite <- Z2Qc_inj_0. apply (proj1 (Z2Qc_inj_lt 0 1000)). lia.
Qed.

(** ** POST /api/users on documents of every shape *)

(** A falsy document of any type ([null], [0], [0.0], [false], the empty
    string, array or object) is refused by the view with 400 and the
    error body: [not data] holds and [data.get] is never reached. *)
Theorem create_user_falsy_document c data app :
  truthy data = false ->
  dispatch c (POST_api_users (Return data)) app =
    (Handled (mkResponse 400
       (PDict {[ "error"%string := PStr "Name and email are required" ]})),
     app).
Proof.
  intros Hfalsy. destruct data as [ |b|z|q|s|l|d].
  7: { rewrite dispatch_create_user_dict. unfold py_not at 1.
       rewrite Hfalsy. reflexivity. }
  all: unfold dispatch; simpl view_of;
       rewrite create_user_not_dict by discriminate;
       unfold py_not; rewrite Hfalsy; reflexivity.
Qed.

Lemma create_user_falsy_document_witness :
  truthy (PList []) = false
  /\ dispatch clock_a (POST_api_users (Return (PList []))) Flask_new =
       (Handled (mkResponse 400
          (PDict {[ "error"%string := PStr "Name and email are required" ]})),
        Flask_new).
Proof.
  split; [reflexivity|].
  exact (create_user_falsy_document clock_a (PList []) Flask_new eq_refl).
Defined.

(** A truthy document that is not an object (a non-empty array or
    string, a non-zero number, [true]) has no [get]: the view raises
    [AttributeError] and the client gets the framework's 500, not the
    view's 400. *)
Theorem create_user_non_object c data app :
  truthy data = true ->
  (forall d, data <> PDict d) ->
  create_user c (Return data) app = (Raise AttributeError, app)
  /\ dispatch c (POST_api_users (Return data)) app
       = (FrameworkError 500, app).
Proof.
  intros Htruthy Hnd.
  assert (create_user c (Return data) app = (Raise AttributeError, app))
    as Hview.
  { rewrite (create_user_not_dict c data app Hnd).
    unfold py_not. rewrite Htruthy. reflexivity. }
  split; [exact Hview|].
  unfold dispatch. simpl view_of. rewrite Hview. reflexivity.
Qed.

Lemma create_user_non_object_witness :
  truthy (PList [PInt 1]) = true
  /\ (forall d, PList [PInt 1] <> PDict d)
  /\ dispatch clock_a (POST_api_users (Return (PList [PInt 1]))) Flask_new
       = (FrameworkError 500, Flask_new).
Proof.
  split; [reflexivity|].
  assert (forall d, PList [PInt 1] <> PDict d) as Hnd by discriminate.
  split; [exact Hnd|].
  exact (proj2 (create_user_non_object clock_a (PList [PInt 1]) Flask_new
                  eq_refl Hnd)).
Defined.

(** Once [get_json] has returned a document, the only exception the view
    can raise is the [AttributeError] of a truthy non-object: the
    subscripts [data['name']] and [data['email']] never fail (no
    [KeyError], no [TypeError]), and [app] is untouched. *)
Theorem create_user_raises_only_AttributeError c data e app app' :
  create_user c (Return data) app = (Raise e, app') ->
  e = AttributeError /\ truthy data = true
  /\ (forall d, data <> PDict d) /\ app' = app.
Proof.
  intros Hraise. destruct data as [ |b|z|q|s|l|d].
  7: { rewrite create_user_dict in Hraise.
       destruct (_ || _); discriminate Hraise. }
  all: rewrite create_user_not_dict in Hraise by discriminate;
       unfold py_not in Hraise;
       match type of Hraise with
       | context [truthy ?v] => destruct (truthy v) eqn:Htruthy
       end;
       simpl in Hraise; [|discriminate Hraise];
       injection Hraise as <- <-;
       repeat split; discriminate.
Qed.

Lemma create_user_raises_only_AttributeError_witness :
  create_user clock_a (Return (PStr "Dana")) Flask_new
    = (Raise AttributeError, Flask_new)
  /\ (AttributeError = AttributeError /\ truthy (PStr "Dana") = true
      /\ (forall d, PStr "Dana" <> PDict d) /\ Flask_new = Flask_new).
Proof.
  assert (create_user clock_a (Return (PStr "Dana")) Flask_new
            = (Raise AttributeError, Flask_new)) as Hraise by reflexivity.
  split; [exact Hraise|].
  exact (create_user_raises_only_AttributeError clock_a (PStr "Dana")
           AttributeError Flask_new Flask_new Hraise).
Defined.

(** A JSON object is accepted (201) exactly when it binds both [name] and
    [email] to truthy values, and is refused with 400 otherwise; there is
    no third answer for an object. *)
Theorem create_user_accepts_iff c (d : gmap string pyval) app :
  (reply_status (dispatch c (POST_api_users (Return (PDict d))) app).1 = 201
   <-> exists n e, d !! "name" = Some n /\ d !! "email" = Some e
                   /\ truthy n = true /\ truthy e = true)
  /\ (reply_status (dispatch c (POST_api_users (Return (PDict d))) app).1 = 201
      \/ (dispatch c (POST_api_users (Return (PDict d))) app).1
           = Handled rejected).
Proof.
  rewrite dispatch_create_user_dict. simpl fst.
  destruct (_ || _) eqn:Htest.
  - split; [|right; reflexivity]. split; [discriminate|].
    intros (n & e & Hn & He & Htn & Hte). exfalso.
    unfold field_or_None, py_not in Htest. rewrite Hn, He in Htest.
    simpl default in Htest.
    rewrite (truthy_dict_lookup d "name" n Hn), Htn, Hte in Htest.
    discriminate Htest.
  - split; [|left; reflexivity]. split; [intros _|reflexivity].
    apply orb_false_iff in Htest as [Htest He].
    apply orb_false_iff in Htest as [_ Hn].
    unfold field_or_None, py_not in Hn, He.
    destruct (d !! "name") as [n|]; [|discriminate Hn].
    destruct (d !! "email") as [e|]; [|discriminate He].
    exists n, e. simpl default in Hn, He.
    repeat split; by apply negb_false_iff.
Qed.

(** An accepted object gets back its [name] and [email] exactly as sent,
    whatever their JSON type (nothing checks that they are strings),
    with the [id] read from the clock and the [created_at] timestamp. *)
Theorem create_user_echoes_fields c (d : gmap string pyval) n e app :
  d !! "name" = Some n -> d !! "email" = Some e ->
  truthy n = true -> truthy e = true ->
  dispatch c (POST_api_users (Return (PDict d))) app =
    (Handled (mkResponse 201 (PDict (dict_literal [
       ("message"%string, PStr "User created successfully");
       ("user"%string, PDict (dict_literal [
          ("id"%string, PInt (py_int (time_time c * Qc_of_Z 1000)%Qc));
          ("name"%string, n);
          ("email"%string, e);
          ("created_at"%string, PStr (now_isoformat c))]))]))),
     app).
Proof. apply dispatch_create_user_accepted. Qed.

Lemma create_user_echoes_fields_witness :
  untyped_body !! "name" = Some (PInt 7)
  /\ untyped_body !! "email" = Some (PList [PStr "a"])
  /\ truthy (PInt 7) = true /\ truthy (PList [PStr "a"]) = true
  /\ reply_status
       (dispatch clock_a (POST_api_users (Return (PDict untyped_body)))
          Flask_new).1 = 201.
Proof.
  repeat (split; [reflexivity|]).
  rewrite (create_user_echoes_fields clock_a untyped_body (PInt 7)
             (PList [PStr "a"]) Flask_new eq_refl eq_refl eq_refl eq_refl).
  reflexivity.
Defined.

(** The view reads nothing of an object but [name] and [email]: two
    objects that agree on both get the same answer, so any other field
    of the body is ignored and never stored in the record. *)
Theorem create_user_reads_two_fields c (d1 d2 : gmap string pyval) app :
  d1 !! "name" = d2 !! "name" ->
  d1 !! "email" = d2 !! "email" ->
  dispatch c (POST_api_users (Return (PDict d1))) app
    = dispatch c (POST_api_users (Return (PDict d2))) app.
Proof.
  intros Hn He. rewrite !dispatch_create_user_dict.
  unfold field_or_None. rewrite Hn, He.
  destruct (d2 !! "name") as [n|] eqn:Hn2.
  - unfold py_not at 1 4.
    rewrite (truthy_dict_lookup d1 "name" n Hn).
    rewrite (truthy_dict_lookup d2 "name" n Hn2). reflexivity.
  - simpl default. change (py_not PNone) with true.
    rewrite !orb_true_r. reflexivity.
Qed.

Lemma create_user_reads_two_fields_witness :
  dana_admin !! "name" = dana !! "name"
  /\ dana_admin !! "email" = dana !! "email"
  /\ dispatch clock_a (POST_api_users (Return (PDict dana_admin))) Flask_new
       = dispatch clock_a (POST_api_users (Return (PDict dana))) Flask_new.
Proof.
  split; [reflexivity|]. split; [reflexivity|].
  exact (create_user_reads_two_fields clock_a dana_admin dana Flask_new
           eq_refl eq_refl).
Defined.

(** ** The synthesized id *)

(** Whatever the request body, an id that comes back is the clock
    reading of the request in whole milliseconds. *)
Lemma reply_user_id_post c gj app k :
  reply_user_id (dispatch c (POST_api_users gj) app).1 = Some k ->
  k = py_int (time_time c * Qc_of_Z 1000)%Qc.
Proof.
  destruct (dispatch_create_user_cases c gj app)
    as [[e ->]|[->|(n & e & ->)]]; [discriminate|discriminate|].
  intros [= <-]. reflexivity.
Qed.

(** The id of a created user is positive exactly when the clock reads at
    least one millisecond past the epoch; on an earlier reading it is 0
    or negative. *)
Theorem create_user_id_positive_iff c gj app k :
  reply_user_id (dispatch c (POST_api_users gj) app).1 = Some k ->
  (0 < k <-> (1 <= time_time c * Qc_of_Z 1000)%Qc).
Proof.
  intros Hid. rewrite (reply_user_id_post c gj app k Hid).
  apply py_int_pos_iff.
Qed.

Lemma create_user_id_positive_iff_witness :
  reply_user_id
    (dispatch clock_a (POST_api_users (Return (PDict dana))) Flask_new).1
    = Some 1700000000000
  /\ (0 < 1700000000000
      <-> (1 <= time_time clock_a * Qc_of_Z 1000)%Qc).
Proof.
  assert (reply_user_id
            (dispatch clock_a (POST_api_users (Return (PDict dana)))
               Flask_new).1 = Some 1700000000000) as Hid by reflexivity.
  split; [exact Hid|].
  exact (create_user_id_positive_iff clock_a (Return (PDict dana)) Flask_new
           1700000000000 Hid).
Defined.

(** Ids follow the clock and nothing else: a user created at a later (or
    equal) clock reading never gets a smaller id, and two users created
    at the same reading get the same id whatever their bodies, so ids
    are not unique. *)
Theorem create_user_id_follows_clock c1 c2 gj1 gj2 app1 app2 k1 k2 :
  (time_time c1 <= time_time c2)%Qc ->
  reply_user_id (dispatch c1 (POST_api_users gj1) app1).1 = Some k1 ->
  reply_user_id (dispatch c2 (POST_api_users gj2) app2).1 = Some k2 ->
  k1 <= k2 /\ (time_time c1 = time_time c2 -> k1 = k2).
Proof.
  intros Hle Hid1 Hid2.
  rewrite (reply_user_id_post c1 gj1 app1 k1 Hid1).
  rewrite (reply_user_id_post c2 gj2 app2 k2 Hid2).
  split; [apply py_int_mono, clock_ms_mono, Hle|].
  intros ->. reflexivity.
Qed.

Lemma create_user_id_follows_clock_witness :
  (time_time clock_a <= time_time clock_b)%Qc
  /\ reply_user_id
       (dispatch clock_a (POST_api_users (Return (PDict dana))) Flask_new).1
     = Some 1700000000000
  /\ reply_user_id
       (dispatch clock_b (POST_api_users (Return (PDict untyped_body)))
          Flask_new).1
     = Some 1700000060000
  /\ 1700000000000 <= 1700000060000.
Proof.
  assert ((time_time clock_a <= time_time clock_b)%Qc) as Hle.
  { apply (proj1 (Z2Qc_inj_le 1700000000 1700000060)). lia. }
  split; [exact Hle|]. split; [reflexivity|]. split; [reflexivity|].
  exact (proj1 (create_user_id_follows_clock clock_a clock_b
                  (Return (PDict dana)) (Return (PDict untyped_body))
                  Flask_new Flask_new 1700000000000 1700000060000
                  Hle eq_refl eq_refl)).
Defined.

(** ** Serving a sequence *)

(** Each reply depends on its own request and clock only: serving a
    sequence is answering every request against the state the process
    started with, whatever was served before it, and the state comes out
    unchanged. *)
Theorem serve_history_free reqs app :
  serve reqs app = (map (fun cr => (dispatch cr.1 cr.2 app).1) reqs, app).
Proof.
  induction reqs as [|[c r] reqs IH]; [reflexivity|].
  simpl. pose proof (dispatch_frame c r app) as Hf.
  destruct (dispatch c r app) as [rep app']. simpl in Hf. subst app'.
  rewrite IH. reflexivity.
Qed.

(** ** GET /health over the life of a process *)

(** A process run as a script at clock [t0] measures every uptime from
    that one stamp: whatever was served before, GET /health at clock [c]
    reports [c - t0]. *)
Theorem health_after_main reqs t0 i c :
  reqs !! i = Some (c, GET_health) ->
  (serve reqs (main t0)).1 !! i =
    Some (Handled (mkResponse 200 (PDict (dict_literal [
      ("status"%string, PStr "OK");
      ("uptime"%string, PFloat (time_time c - t0)%Qc)])))).
Proof. intros Hi. rewrite (serve_lookup reqs (main t0) i c _ Hi). reflexivity. Qed.

Lemma health_after_main_witness :
  [(clock_a, POST_api_users (Return (PDict dana))); (clock_b, GET_health)]
    !! 1%nat = Some (clock_b, GET_health)
  /\ ((serve [(clock_a, POST_api_users (Return (PDict dana)));
              (clock_b, GET_health)] (main (Qc_of_Z 1700000000))).1
        !! 1%nat) ≫= reply_uptime
     = Some (time_time clock_b - Qc_of_Z 1700000000)%Qc.
Proof.
  split; [reflexivity|].
  rewrite (health_after_main
             [(clock_a, POST_api_users (Return (PDict dana)));
              (clock_b, GET_health)]
             (Qc_of_Z 1700000000) 1 clock_b eq_refl).
  reflexivity.
Defined.

(** A process whose module was only imported (the [__main__] block did
    not run) never has a start time: GET /health reports uptime 0 at
    every clock reading, whatever was served before. *)
Theorem health_when_imported reqs i c :
  reqs !! i = Some (c, GET_health) ->
  (serve reqs Flask_new).1 !! i =
    Some (Handled (mkResponse 200 (PDict (dict_literal [
      ("status"%string, PStr "OK");
      ("uptime"%string, PInt 0)])))).
Proof. intros Hi. rewrite (serve_lookup reqs Flask_new i c _ Hi). reflexivity. Qed.

Lemma health_when_imported_witness :
  [(clock_a, POST_api_users (Return (PDict dana))); (clock_b, GET_health)]
    !! 1%nat = Some (clock_b, GET_health)
  /\ ((serve [(clock_a, POST_api_users (Return (PDict dana)));
              (clock_b, GET_health)] Flask_new).1 !! 1%nat) ≫= reply_uptime
     = Some (Qc_of_Z 0).
Proof.
  split; [reflexivity|].
  rewrite (health_when_imported
             [(clock_a, POST_api_users (Return (PDict dana)));
              (clock_b, GET_health)] 1 clock_b eq_refl).
  reflexivity.
Defined.

(** With a start time stamped, the reported uptime is negative exactly
    when the clock at the request reads earlier than the stamp (the wall
    clock was set back), and not negative otherwise. *)
Theorem health_uptime_sign c t0 app :
  start_time app = Some t0 ->
  exists q,
    reply_uptime (dispatch c GET_health app).1 = Some q
    /\ ((0 <= q)%Qc <-> (t0 <= time_time c)%Qc)
    /\ ((q < 0)%Qc <-> (time_time c < t0)%Qc).
Proof.
  intros Hstart. exists (time_time c - t0)%Qc.
  assert ((0 <= time_time c - t0)%Qc <-> (t0 <= time_time c)%Qc) as Hsign.
  { unfold Qcminus. symmetry. apply Qcle_minus_iff. }
  split; [|split; [exact Hsign|]].
  - unfold dispatch, view_of, health, bind, get_app, ret. rewrite Hstart.
    reflexivity.
  - rewrite !Qclt_nge, Hsign. reflexivity.
Qed.

Lemma health_uptime_sign_witness :
  start_time (main (Qc_of_Z 1700000060)) = Some (Qc_of_Z 1700000060)
  /\ exists q,
       reply_uptime
         (dispatch clock_a GET_health (main (Qc_of_Z 1700000060))).1 = Some q
       /\ ((0 <= q)%Qc <-> (Qc_of_Z 1700000060 <= time_time clock_a)%Qc)
       /\ ((q < 0)%Qc <-> (time_time clock_a < Qc_of_Z 1700000060)%Qc).
Proof.
  split; [reflexivity|].
  exact (health_uptime_sign clock_a (Qc_of_Z 1700000060)
           (main (Qc_of_Z 1700000060)) eq_refl).
Defined.
